(** * compare_versions.py: release gate of the envmgr CI workflow

    A shallow embedding of [.github/workflows/scripts/compare_versions.py]
    and the properties of it that the specification states.

    Modelling choices.
    - A Python [str] is a Stdlib [string]; comparison is character-wise
      lexicographic, a proper prefix being the smaller string.  Text outside
      ASCII is read as its UTF-8 bytes, whose lexicographic order is the
      order of the code points that Python compares.
    - The script's effects are appends to files named by a path and writes
      to standard output.  A run yields the ordered list of the effects it
      performed (its trace) together with the way it ended: normally, or
      by an exception that nothing catches.  [replay] turns a trace into
      file contents.
    - Opening a file for appending and writing to it are assumed to
      succeed. *)

From Stdlib Require Import String Ascii ZArith List Bool.
From stdpp Require Import gmap strings.

Local Open Scope Z_scope.

(** ** The fragment of Python the script relies on *)

Module Py.

(** ["\n"] *)
Definition nl : string := String (ascii_of_nat 10) EmptyString.

(** [c in chars] *)
Fixpoint contains (chars : string) (c : ascii) : bool :=
  match chars with
  | EmptyString => false
  | String d chars' => if Ascii.eqb c d then true else contains chars' c
  end.

(** [s.lstrip(chars)]: drops leading characters for as long as they
    belong to the set [chars]. *)
Fixpoint lstrip (chars s : string) : string :=
  match s with
  | EmptyString => EmptyString
  | String c s' => if contains chars c then lstrip chars s' else s
  end.

(** [a > b] and [a == b] on [str]. *)
Definition gt (a b : string) : bool :=
  match String.compare a b with
  | Gt => true
  | _ => false
  end.

Definition eq (a b : string) : bool := String.eqb a b.

(** [c * n] for a one-character string [c]. *)
Fixpoint replicate (n : nat) (c : ascii) : string :=
  match n with
  | O => EmptyString
  | S n' => String c (replicate n' c)
  end.

(** Exceptions the script can end with.  [EnvironmentError] is Python 3's
    alias of [OSError]; it carries its message. *)
Inductive exn : Type :=
| EnvironmentError (msg : string)
| SystemExit (code : Z)
| IndexError.

Inductive result (A : Type) : Type :=
| Return (a : A)
| Raise (e : exn).
Arguments Return {A} a.
Arguments Raise {A} e.

(** What the process does to the outside world. *)
Inductive effect : Type :=
| FileAppend (path data : string)   (* with open(path, "a") as f: f.write(data) *)
| StdoutWrite (data : string).      (* print(...) *)

Definition trace : Type := list effect.

(** A computation: the effects it performed, in order, and its result. *)
Definition io (A : Type) : Type := (trace * result A)%type.

Definition ret {A} (a : A) : io A := ([], Return a).

Definition bind {A B} (m : io A) (k : A -> io B) : io B :=
  match m with
  | (t1, Return a) => let (t2, r) := k a in (t1 ++ t2, r)
  | (t1, Raise e) => (t1, Raise e)
  end.

Definition raise {A} (e : exn) : io A := ([], Raise e).

Definition emit (e : effect) : io unit := ([e], Return tt).

(** [print(line)] *)
Definition print (line : string) : io unit := emit (StdoutWrite (line +:+ nl)).

(** [sys.exit(code)], and the builtin [exit(code)] *)
Definition sys_exit {A} (code : Z) : io A := raise (SystemExit code).

(** [os.getenv(name)] *)
Definition getenv (environ : gmap string string) (name : string) : option string :=
  environ !! name.

(** Truth value of an [Optional[str]]: [None] and the empty string are
    false. *)
Definition truthy (v : option string) : bool :=
  match v with
  | None => false
  | Some EmptyString => false
  | Some (String _ _) => true
  end.

(** [l[i]] *)
Definition getitem (l : list string) (i : nat) : io string :=
  match l !! i with
  | Some x => ret x
  | None => raise IndexError
  end.

(** Exit status of the interpreter: 0 after normal completion, the code of
    a [SystemExit], 1 after any other uncaught exception. *)
Definition exit_status {A} (r : result A) : Z :=
  match r with
  | Return _ => 0
  | Raise (SystemExit code) => code
  | Raise _ => 1
  end.

End Py.

#[global] Instance io_ret : MRet Py.io := @Py.ret.
#[global] Instance io_bind : MBind Py.io := fun A B k m => Py.bind m k.

(** ** The script *)

Section Script.

(** Module-level globals, set from the environment before anything else
    runs. *)
Variables gh_output gh_step_summary : string.

Definition write_gh_output (name value : string) : Py.io unit :=
  Py.emit (Py.FileAppend gh_output (name +:+ "=" +:+ value +:+ Py.nl)).

Definition write_gh_step_summary (content : string) : Py.io unit :=
  Py.emit (Py.FileAppend gh_step_summary (content +:+ Py.nl)).

Definition main (tag cargo_version : string) : Py.io unit :=
  let tag := Py.lstrip "v" tag in
  write_gh_step_summary ("## Tag: " +:+ tag) ;;
  write_gh_step_summary ("## Cargo Version: " +:+ cargo_version) ;;
  (if Py.gt tag cargo_version then
     write_gh_step_summary
       "Tag is ahead of Cargo version. Please update Cargo.toml. And recreate the tag." ;;
     Py.sys_exit 1
   else Py.ret tt) ;;
  (if Py.eq tag cargo_version then
     write_gh_step_summary "No release needed." ;;
     write_gh_output "release_needed" "false"
   else
     write_gh_step_summary "Release needed." ;;
     write_gh_output "release_needed" "true") ;;
  write_gh_output "tag" tag ;;
  write_gh_output "cargo_version" cargo_version.

(** The [if __name__ == "__main__":] block. *)
Definition dunder_main (argv : list string) : Py.io unit :=
  (if negb (length argv =? 3)%nat then
     Py.print "Usage: compare_versions.py <tag> <cargo_version>" ;;
     Py.sys_exit 1
   else Py.ret tt) ;;
  tag_arg ← Py.getitem argv 1;
  cargo_version_arg ← Py.getitem argv 2;
  main tag_arg cargo_version_arg.

End Script.

(** The whole module, run as a script with environment [environ] and
    [sys.argv = argv]. *)
Definition compare_versions (environ : gmap string string) (argv : list string)
  : Py.io unit :=
  let gh_output := Py.getenv environ "GITHUB_OUTPUT" in
  if negb (Py.truthy gh_output) then
    Py.raise (Py.EnvironmentError "GITHUB_OUTPUT environment variable is not set")
  else
  let gh_step_summary := Py.getenv environ "GITHUB_STEP_SUMMARY" in
  if negb (Py.truthy gh_step_summary) then
    Py.raise (Py.EnvironmentError "GITHUB_STEP_SUMMARY environment variable is not set")
  else
  dunder_main (default EmptyString gh_output) (default EmptyString gh_step_summary) argv.

(** ** From a trace to file contents *)

Record world : Type := World {
  files : gmap string string;   (* path -> content *)
  stdout : string
}.

(** Appending to a path creates the file when it does not exist. *)
Definition apply_effect (w : world) (e : Py.effect) : world :=
  match e with
  | Py.FileAppend path data =>
      World (<[path := default EmptyString (files w !! path) +:+ data]> (files w)) (stdout w)
  | Py.StdoutWrite data =>
      World (files w) (stdout w +:+ data)
  end.

Definition replay (w : world) (t : Py.trace) : world := fold_left apply_effect t w.

(** The text a trace appends to the file at [path], and the text it prints. *)
Fixpoint appended (path : string) (t : Py.trace) : string :=
  match t with
  | [] => EmptyString
  | Py.FileAppend p data :: t' =>
      if String.eqb p path then data +:+ appended path t' else appended path t'
  | Py.StdoutWrite _ :: t' => appended path t'
  end.

Fixpoint printed (t : Py.trace) : string :=
  match t with
  | [] => EmptyString
  | Py.StdoutWrite data :: t' => data +:+ printed t'
  | Py.FileAppend _ _ :: t' => printed t'
  end.

(** ** Vocabulary of the statements *)

(** A variable that [os.getenv] finds unset, or set to the empty string. *)
Definition missing (environ : gmap string string) (name : string) : Prop :=
  Py.getenv environ name = None \/ Py.getenv environ name = Some EmptyString.

(** Both sinks are configured: [o] is the output sink, [s] the summary sink. *)
Definition configured (environ : gmap string string) (o s : string) : Prop :=
  Py.getenv environ "GITHUB_OUTPUT" = Some o /\ o <> EmptyString /\
  Py.getenv environ "GITHUB_STEP_SUMMARY" = Some s /\ s <> EmptyString.

Definition env_ok (environ : gmap string string) : bool :=
  Py.truthy (Py.getenv environ "GITHUB_OUTPUT") &&
  Py.truthy (Py.getenv environ "GITHUB_STEP_SUMMARY").

(** A Markdown heading written to some file. *)
Definition is_heading (e : Py.effect) : bool :=
  match e with
  | Py.FileAppend _ data => String.prefix "## " data
  | Py.StdoutWrite _ => false
  end.

Definition usage : string := "Usage: compare_versions.py <tag> <cargo_version>".

Definition tag_ahead_msg : string :=
  "Tag is ahead of Cargo version. Please update Cargo.toml. And recreate the tag.".

(** An environment as the workflow runner provides it, for the examples. *)
Definition runner_env : gmap string string :=
  <["GITHUB_OUTPUT" := "/run/output"]> (<["GITHUB_STEP_SUMMARY" := "/run/summary"]> ∅).

(** ** Strings *)

Lemma append_cons (c : ascii) (a b : string) :
  String c a +:+ b = String c (a +:+ b).
Proof. reflexivity. Qed.

Lemma append_nil_r (s : string) : s +:+ EmptyString = s.
Proof.
  induction s as [|c s IH]; [reflexivity |].
  now rewrite append_cons, IH.
Qed.

Lemma append_assoc (a b c : string) : (a +:+ b) +:+ c = a +:+ (b +:+ c).
Proof.
  induction a as [|x a IH]; [reflexivity |].
  now rewrite !append_cons, IH.
Qed.

Lemma ascii_compare_refl (c : ascii) : Ascii.compare c c = Eq.
Proof. unfold Ascii.compare. apply N.compare_refl. Qed.

Lemma compare_refl (s : string) : String.compare s s = Eq.
Proof.
  induction s as [|c s IH]; simpl; [reflexivity |].
  now rewrite ascii_compare_refl.
Qed.

Lemma compare_nil_l (s : string) : s <> EmptyString -> String.compare EmptyString s = Lt.
Proof. destruct s; [congruence | reflexivity]. Qed.

Lemma gt_iff (a b : string) : Py.gt a b = true <-> String.compare a b = Gt.
Proof. unfold Py.gt. destruct (String.compare a b); split; congruence. Qed.

Lemma gt_false_iff (a b : string) :
  Py.gt a b = false <-> a = b \/ String.compare a b = Lt.
Proof.
  unfold Py.gt. destruct (String.compare a b) eqn:E; split; try congruence; auto.
  - intros _. left. now apply String.compare_eq_iff.
  - intros [->|]; [rewrite compare_refl in E|]; congruence.
Qed.

Lemma eq_lt_false (a b : string) : String.compare a b = Lt -> Py.eq a b = false.
Proof.
  intros H. apply String.eqb_neq. intros ->. rewrite compare_refl in H. congruence.
Qed.

(** ** [lstrip] *)

Lemma lstrip_fixed (chars s : string) :
  match String.get 0 s with
  | Some c => Py.contains chars c = false
  | None => True
  end ->
  Py.lstrip chars s = s.
Proof. destruct s as [|c s]; simpl; [reflexivity | now intros ->]. Qed.

Lemma lstrip_head (chars s : string) :
  match String.get 0 (Py.lstrip chars s) with
  | Some c => Py.contains chars c = false
  | None => True
  end.
Proof.
  induction s as [|c s IH]; simpl; [exact I |].
  destruct (Py.contains chars c) eqn:E; [exact IH | simpl; exact E].
Qed.

Lemma contains_v (c : ascii) : Py.contains "v" c = true <-> c = "v"%char.
Proof.
  simpl. destruct (Ascii.eqb_spec c "v"); split; congruence.
Qed.

Lemma replicate_lstrip (chars : string) (c : ascii) (n : nat) (rest : string) :
  Py.contains chars c = true ->
  Py.lstrip chars (Py.replicate n c +:+ rest) = Py.lstrip chars rest.
Proof.
  intros H. induction n as [|n IH]; [reflexivity |].
  cbn [Py.replicate]. rewrite append_cons. cbn [Py.lstrip]. now rewrite H.
Qed.

(** Every tag is a run of ['v'] followed by what [lstrip] keeps. *)
Lemma lstrip_v_decompose (tag : string) :
  exists n, tag = Py.replicate n "v" +:+ Py.lstrip "v" tag.
Proof.
  induction tag as [|c tag [n IH]].
  - now exists O.
  - cbn [Py.lstrip]. destruct (Py.contains "v" c) eqn:E.
    + apply contains_v in E. subst c. exists (S n).
      cbn [Py.replicate]. now rewrite append_cons, <- IH.
    + now exists O.
Qed.

(** ** The monad *)

Lemma bind_ret_l {A B} (a : A) (k : A -> Py.io B) : Py.bind (Py.ret a) k = k a.
Proof. unfold Py.bind, Py.ret. now destruct (k a). Qed.

Lemma bind_raise_l {A B} (t : Py.trace) (e : Py.exn) (k : A -> Py.io B) :
  Py.bind (t, Py.Raise e) k = (t, Py.Raise e).
Proof. reflexivity. Qed.

(** ** Replaying a trace *)

Lemma replay_app (w : world) (t1 t2 : Py.trace) :
  replay w (t1 ++ t2) = replay (replay w t1) t2.
Proof. apply fold_left_app. Qed.

(** The content of every file after a run is its content before, followed by
    what the trace appends to that path; a file that does not exist counts
    as empty. *)
Lemma replay_content (t : Py.trace) (w : world) (path : string) :
  default EmptyString (files (replay w t) !! path)
  = default EmptyString (files w !! path) +:+ appended path t.
Proof.
  revert w. induction t as [|e t IH]; intros w.
  - cbn. now rewrite append_nil_r.
  - change (replay w (e :: t)) with (replay (apply_effect w e) t).
    rewrite IH. destruct e as [p d|d]; cbn [apply_effect files appended].
    + destruct (String.eqb_spec p path) as [->|Hne].
      * rewrite lookup_insert_eq. cbn. now rewrite append_assoc.
      * now rewrite lookup_insert_ne.
    + reflexivity.
Qed.

Lemma replay_stdout (t : Py.trace) (w : world) :
  stdout (replay w t) = stdout w +:+ printed t.
Proof.
  revert w. induction t as [|e t IH]; intros w.
  - cbn. now rewrite append_nil_r.
  - change (replay w (e :: t)) with (replay (apply_effect w e) t).
    rewrite IH. destruct e as [p d|d]; cbn [apply_effect stdout printed].
    + reflexivity.
    + now rewrite append_assoc.
Qed.

(** ** The three branches of [main] *)

Section Branches.

Variables (o s tag cv : string).

Lemma main_ahead :
  String.compare (Py.lstrip "v" tag) cv = Gt ->
  main o s tag cv =
    ([Py.FileAppend s ("## Tag: " +:+ Py.lstrip "v" tag +:+ Py.nl);
      Py.FileAppend s ("## Cargo Version: " +:+ cv +:+ Py.nl);
      Py.FileAppend s (tag_ahead_msg +:+ Py.nl)],
     Py.Raise (Py.SystemExit 1)).
Proof.
  intros H. apply gt_iff in H. unfold main. cbv zeta. rewrite H. reflexivity.
Qed.

Lemma main_equal :
  Py.lstrip "v" tag = cv ->
  main o s tag cv =
    ([Py.FileAppend s ("## Tag: " +:+ cv +:+ Py.nl);
      Py.FileAppend s ("## Cargo Version: " +:+ cv +:+ Py.nl);
      Py.FileAppend s ("No release needed." +:+ Py.nl);
      Py.FileAppend o ("release_needed=false" +:+ Py.nl);
      Py.FileAppend o ("tag=" +:+ cv +:+ Py.nl);
      Py.FileAppend o ("cargo_version=" +:+ cv +:+ Py.nl)],
     Py.Return tt).
Proof.
  intros H. unfold main. cbv zeta. rewrite H.
  assert (Hgt : Py.gt cv cv = false) by (apply gt_false_iff; now left).
  assert (Heq : Py.eq cv cv = true) by apply String.eqb_refl.
  rewrite Hgt, Heq. reflexivity.
Qed.

Lemma main_behind :
  String.compare (Py.lstrip "v" tag) cv = Lt ->
  main o s tag cv =
    ([Py.FileAppend s ("## Tag: " +:+ Py.lstrip "v" tag +:+ Py.nl);
      Py.FileAppend s ("## Cargo Version: " +:+ cv +:+ Py.nl);
      Py.FileAppend s ("Release needed." +:+ Py.nl);
      Py.FileAppend o ("release_needed=true" +:+ Py.nl);
      Py.FileAppend o ("tag=" +:+ Py.lstrip "v" tag +:+ Py.nl);
      Py.FileAppend o ("cargo_version=" +:+ cv +:+ Py.nl)],
     Py.Return tt).
Proof.
  intros H. unfold main. cbv zeta.
  assert (Hgt : Py.gt (Py.lstrip "v" tag) cv = false)
    by (apply gt_false_iff; now right).
  rewrite Hgt, (eq_lt_false _ _ H). reflexivity.
Qed.

End Branches.

(** ** The module level *)

Lemma missing_truthy (environ : gmap string string) (name : string) :
  missing environ name <-> Py.truthy (Py.getenv environ name) = false.
Proof.
  unfold missing. destruct (Py.getenv environ name) as [[|c v]|]; cbn;
    split; try tauto; try congruence; intros [|]; congruence.
Qed.

Lemma truthy_some (v : option string) :
  Py.truthy v = true -> exists p, v = Some p /\ p <> EmptyString.
Proof.
  destruct v as [[|c p]|]; cbn; try discriminate.
  intros _. now exists (String c p).
Qed.

Lemma run_configured (environ : gmap string string) (o s : string) (argv : list string) :
  configured environ o s ->
  compare_versions environ argv = dunder_main o s argv.
Proof.
  intros (Ho & Hno & Hs & Hns). unfold compare_versions. rewrite Ho, Hs.
  destruct o; [congruence |]. destruct s; [congruence |]. reflexivity.
Qed.

Lemma run_missing_output (environ : gmap string string) (argv : list string) :
  missing environ "GITHUB_OUTPUT" ->
  compare_versions environ argv =
    ([], Py.Raise (Py.EnvironmentError "GITHUB_OUTPUT environment variable is not set")).
Proof.
  intros H. apply missing_truthy in H. unfold compare_versions. now rewrite H.
Qed.

Lemma run_missing_summary (environ : gmap string string) (argv : list string) :
  Py.truthy (Py.getenv environ "GITHUB_OUTPUT") = true ->
  missing environ "GITHUB_STEP_SUMMARY" ->
  compare_versions environ argv =
    ([], Py.Raise (Py.EnvironmentError "GITHUB_STEP_SUMMARY environment variable is not set")).
Proof.
  intros Ho H. apply missing_truthy in H. unfold compare_versions. now rewrite Ho, H.
Qed.

Lemma dunder_main_args (o s prog tag cv : string) :
  dunder_main o s [prog; tag; cv] = main o s tag cv.
Proof.
  unfold dunder_main. cbn [length Nat.eqb negb].
  unfold mbind, io_bind. rewrite bind_ret_l.
  cbn [Py.getitem lookup list_lookup]. now rewrite !bind_ret_l.
Qed.

Lemma dunder_main_usage (o s : string) (argv : list string) :
  length argv <> 3%nat ->
  dunder_main o s argv =
    ([Py.StdoutWrite (usage +:+ Py.nl)], Py.Raise (Py.SystemExit 1)).
Proof.
  intros H. apply Nat.eqb_neq in H. unfold dunder_main. rewrite H. reflexivity.
Qed.

(** A run with both sinks configured and two positional arguments is [main]
    on those arguments. *)
Lemma run_valid (environ : gmap string string) (o s prog tag cv : string) :
  configured environ o s ->
  compare_versions environ [prog; tag; cv] = main o s tag cv.
Proof. intros H. now rewrite (run_configured _ _ _ _ H), dunder_main_args. Qed.

Lemma runner_env_configured : configured runner_env "/run/output" "/run/summary".
Proof. repeat split; try discriminate; vm_compute; reflexivity. Qed.

(** ** The scenarios of the specification, run on the model *)

Example lexicographic_not_semver :
  Py.gt "9.0.0" "10.0.0" = true /\ String.compare "10.0.0" "9.0.0" = Lt.
Proof. split; reflexivity. Qed.

Example scenario_equal_output_file :
  let w := replay (World ∅ EmptyString)
             (fst (compare_versions runner_env ["compare_versions.py"; "v1.2.3"; "1.2.3"])) in
  files w !! "/run/output" =
    Some ("release_needed=false" +:+ Py.nl +:+ "tag=1.2.3" +:+ Py.nl +:+
          "cargo_version=1.2.3" +:+ Py.nl) /\
  files w !! "/run/summary" =
    Some ("## Tag: 1.2.3" +:+ Py.nl +:+ "## Cargo Version: 1.2.3" +:+ Py.nl +:+
          "No release needed." +:+ Py.nl) /\
  stdout w = EmptyString.
Proof. repeat split; vm_compute; reflexivity. Qed.

Example scenario_ahead_output_file :
  let w := replay (World ∅ EmptyString)
             (fst (compare_versions runner_env ["compare_versions.py"; "v1.2.4"; "1.2.3"])) in
  files w !! "/run/output" = None /\
  Py.exit_status (snd (compare_versions runner_env
                         ["compare_versions.py"; "v1.2.4"; "1.2.3"])) = 1.
Proof. split; vm_compute; reflexivity. Qed.

(** * The claims *)

(** ** Normalization of the tag *)

(** C1, as the specification words it, fails: of the two leading ['v'] of
    ["vv1.2.3"] both are removed, and the result is ["1.2.3"], not
    ["v1.2.3"]. *)
Lemma C1_two_leading_v_both_removed :
  Py.lstrip "v" "vv1.2.3" = "1.2.3" /\ Py.lstrip "v" "vv1.2.3" <> "v1.2.3".
Proof. split; [reflexivity | discriminate]. Qed.

(** C1, amended: normalization removes every leading ['v'].  A tag made of
    [n] characters ['v'] followed by a rest that does not start with ['v']
    is normalized to that rest: unchanged for [n = 0], one character removed
    for [n = 1], all [n] removed for [n >= 2]. *)
Theorem C1_lstrip_removes_all_leading_v (n : nat) (rest : string) :
  String.get 0 rest <> Some "v"%char ->
  Py.lstrip "v" (Py.replicate n "v" +:+ rest) = rest.
Proof.
  intros H. rewrite replicate_lstrip by reflexivity.
  apply lstrip_fixed. destruct rest as [|c rest]; [exact I |].
  cbn [String.get]. destruct (Py.contains "v" c) eqn:E; [| reflexivity].
  apply contains_v in E. subst c. now contradiction H.
Qed.

Lemma C1_lstrip_removes_all_leading_v_witness :
  String.get 0 "1.2.3" <> Some "v"%char /\
  Py.lstrip "v" (Py.replicate 2 "v" +:+ "1.2.3") = "1.2.3".
Proof.
  split; [discriminate |].
  apply (C1_lstrip_removes_all_leading_v 2 "1.2.3"). discriminate.
Defined.

(** C9: normalizing a normalized tag changes nothing. *)
Theorem C9_normalization_idempotent (t : string) :
  Py.lstrip "v" (Py.lstrip "v" t) = Py.lstrip "v" t.
Proof. apply lstrip_fixed, lstrip_head. Qed.

(** ** Configuration and usage errors *)

(** C6: when either variable is unset or empty the run ends, whatever
    [argv] is, with an uncaught [EnvironmentError] that names a missing
    variable; the exit status is 1, the trace is empty, and so every file
    and standard output are as they were. *)
Theorem C6_missing_environment_is_fatal
    (environ : gmap string string) (argv : list string) :
  missing environ "GITHUB_OUTPUT" \/ missing environ "GITHUB_STEP_SUMMARY" ->
  exists name,
    (name = "GITHUB_OUTPUT" \/ name = "GITHUB_STEP_SUMMARY") /\
    missing environ name /\
    compare_versions environ argv =
      ([], Py.Raise (Py.EnvironmentError (name +:+ " environment variable is not set"))) /\
    Py.exit_status (snd (compare_versions environ argv)) = 1 /\
    forall w, replay w (fst (compare_versions environ argv)) = w.
Proof.
  intros H.
  destruct (Py.truthy (Py.getenv environ "GITHUB_OUTPUT")) eqn:Ho.
  - destruct H as [H|H]; [apply missing_truthy in H; congruence |].
    exists "GITHUB_STEP_SUMMARY".
    rewrite (run_missing_summary environ argv Ho H). auto 6.
  - apply missing_truthy in Ho. exists "GITHUB_OUTPUT".
    rewrite (run_missing_output environ argv Ho). auto 6.
Qed.

Lemma C6_missing_environment_is_fatal_witness :
  let environ : gmap string string := <["GITHUB_OUTPUT" := "/run/output"]> ∅ in
  let argv := ["compare_versions.py"; "v1.2.3"; "1.2.3"] in
  (missing environ "GITHUB_OUTPUT" \/ missing environ "GITHUB_STEP_SUMMARY") /\
  exists name,
    (name = "GITHUB_OUTPUT" \/ name = "GITHUB_STEP_SUMMARY") /\
    missing environ name /\
    compare_versions environ argv =
      ([], Py.Raise (Py.EnvironmentError (name +:+ " environment variable is not set"))) /\
    Py.exit_status (snd (compare_versions environ argv)) = 1 /\
    forall w, replay w (fst (compare_versions environ argv)) = w.
Proof.
  intros environ argv.
  assert (H : missing environ "GITHUB_OUTPUT" \/ missing environ "GITHUB_STEP_SUMMARY")
    by (right; left; vm_compute; reflexivity).
  split; [exact H |].
  exact (C6_missing_environment_is_fatal environ argv H).
Defined.

(** C5, as the specification words it, fails: with a wrong argument count
    and no environment configured, nothing is printed to standard output;
    the run ends with the configuration error instead. *)
Lemma C5_no_usage_without_environment :
  let environ : gmap string string := ∅ in
  let argv := ["compare_versions.py"] in
  length argv <> 3%nat /\
  printed (fst (compare_versions environ argv)) = EmptyString /\
  snd (compare_versions environ argv) =
    Py.Raise (Py.EnvironmentError "GITHUB_OUTPUT environment variable is not set").
Proof. repeat split. cbn. lia. Qed.

(** C5, amended: a run with an argument count other than two exits with
    status 1 in every environment; it prints the usage message to standard
    output, and does nothing else, exactly when both variables are set and
    not empty, and otherwise performs no effect at all. *)
Theorem C5_wrong_argument_count
    (environ : gmap string string) (argv : list string) :
  length argv <> 3%nat ->
  Py.exit_status (snd (compare_versions environ argv)) = 1 /\
  fst (compare_versions environ argv) =
    if env_ok environ then [Py.StdoutWrite (usage +:+ Py.nl)] else [].
Proof.
  intros Hlen. unfold env_ok.
  destruct (Py.truthy (Py.getenv environ "GITHUB_OUTPUT")) eqn:Ho; cbn [andb].
  - destruct (Py.truthy (Py.getenv environ "GITHUB_STEP_SUMMARY")) eqn:Hs.
    + destruct (truthy_some _ Ho) as (o & Eo & Hno).
      destruct (truthy_some _ Hs) as (s & Es & Hns).
      assert (Hc : configured environ o s) by (repeat split; assumption).
      rewrite (run_configured _ _ _ argv Hc), (dunder_main_usage _ _ _ Hlen).
      now split.
    + apply missing_truthy in Hs.
      rewrite (run_missing_summary environ argv Ho Hs). now split.
  - apply missing_truthy in Ho.
    rewrite (run_missing_output environ argv Ho). now split.
Qed.

Lemma C5_wrong_argument_count_witness :
  let argv := ["compare_versions.py"; "v1.2.3"] in
  length argv <> 3%nat /\
  Py.exit_status (snd (compare_versions runner_env argv)) = 1 /\
  fst (compare_versions runner_env argv) =
    if env_ok runner_env then [Py.StdoutWrite (usage +:+ Py.nl)] else [].
Proof.
  intros argv.
  assert (H : length argv <> 3%nat) by (cbn; lia).
  split; [exact H |].
  exact (C5_wrong_argument_count runner_env argv H).
Defined.

(** ** The decision *)

Section Decision.

Variables (environ : gmap string string) (o s prog tag cv : string).

(** The normalized tag, and the run on [tag] and [cv]. *)
Local Abbreviation t := (Py.lstrip "v" tag).
Local Abbreviation run := (compare_versions environ [prog; tag; cv]).

(** C2: when the normalized tag is greater than the reference version the
    run performs exactly three effects, all appends to the summary sink: the
    two headings and the line saying that the tag is ahead.  It then exits
    with status 1.  None of its effects is an output record named
    [release_needed], [tag] or [cargo_version], and with distinct sinks
    nothing at all is appended to the output sink. *)
Theorem C2_tag_ahead_hard_stop :
  configured environ o s ->
  String.compare t cv = Gt ->
  run =
    ([Py.FileAppend s ("## Tag: " +:+ t +:+ Py.nl);
      Py.FileAppend s ("## Cargo Version: " +:+ cv +:+ Py.nl);
      Py.FileAppend s
        ("Tag is ahead of Cargo version. Please update Cargo.toml. And recreate the tag."
         +:+ Py.nl)],
     Py.Raise (Py.SystemExit 1)) /\
  Py.exit_status (snd run) = 1 /\
  (forall name value,
      In name ["release_needed"; "tag"; "cargo_version"] ->
      ~ In (Py.FileAppend o (name +:+ "=" +:+ value +:+ Py.nl)) (fst run)) /\
  (o <> s -> appended o (fst run) = EmptyString).
Proof.
  intros Hc Hgt. rewrite (run_valid _ _ _ _ _ _ Hc).
  rewrite (main_ahead _ _ _ _ Hgt). cbn [fst snd Py.exit_status].
  split; [reflexivity |]. split; [reflexivity |]. split.
  - intros name value Hname Hin.
    cbn [In] in Hname, Hin.
    destruct Hname as [<-|[<-|[<-|[]]]];
      destruct Hin as [E|[E|[E|[]]]]; discriminate E.
  - intros Hne. apply String.eqb_neq in Hne. rewrite String.eqb_sym in Hne.
    cbn [appended]. now rewrite Hne.
Qed.

(** C3: when the normalized tag equals the reference version the run
    appends the two headings and the line [No release needed.] to the
    summary sink, then the records [release_needed=false], [tag] and
    [cargo_version] to the output sink, and completes with status 0. *)
Theorem C3_tag_equal_no_release :
  configured environ o s ->
  t = cv ->
  run =
    ([Py.FileAppend s ("## Tag: " +:+ t +:+ Py.nl);
      Py.FileAppend s ("## Cargo Version: " +:+ cv +:+ Py.nl);
      Py.FileAppend s ("No release needed." +:+ Py.nl);
      Py.FileAppend o ("release_needed=false" +:+ Py.nl);
      Py.FileAppend o ("tag=" +:+ t +:+ Py.nl);
      Py.FileAppend o ("cargo_version=" +:+ cv +:+ Py.nl)],
     Py.Return tt) /\
  Py.exit_status (snd run) = 0.
Proof.
  intros Hc Heq. rewrite (run_valid _ _ _ _ _ _ Hc).
  rewrite (main_equal _ _ _ _ Heq), Heq. now split.
Qed.

(** C4: when the normalized tag is less than the reference version the run
    appends the two headings and the line [Release needed.] to the summary
    sink, then the records [release_needed=true], [tag] and
    [cargo_version] to the output sink, and completes with status 0. *)
Theorem C4_tag_behind_release_needed :
  configured environ o s ->
  String.compare t cv = Lt ->
  run =
    ([Py.FileAppend s ("## Tag: " +:+ t +:+ Py.nl);
      Py.FileAppend s ("## Cargo Version: " +:+ cv +:+ Py.nl);
      Py.FileAppend s ("Release needed." +:+ Py.nl);
      Py.FileAppend o ("release_needed=true" +:+ Py.nl);
      Py.FileAppend o ("tag=" +:+ t +:+ Py.nl);
      Py.FileAppend o ("cargo_version=" +:+ cv +:+ Py.nl)],
     Py.Return tt) /\
  Py.exit_status (snd run) = 0.
Proof.
  intros Hc Hlt. rewrite (run_valid _ _ _ _ _ _ Hc).
  rewrite (main_behind _ _ _ _ Hlt). now split.
Qed.

(** C7: in both branches that are not the hard stop the trace ends with
    three appends to the output sink, in this order: the [release_needed]
    record, then [tag=<normalized tag>], then
    [cargo_version=<reference version>], each as [name=value] followed by a
    newline; so the content of the output sink ends with these three
    lines. *)
Theorem C7_tag_and_version_records :
  configured environ o s ->
  t = cv \/ String.compare t cv = Lt ->
  exists before needed,
    (needed = "true" \/ needed = "false") /\
    fst run = before ++
      [Py.FileAppend o ("release_needed=" +:+ needed +:+ Py.nl);
       Py.FileAppend o ("tag=" +:+ t +:+ Py.nl);
       Py.FileAppend o ("cargo_version=" +:+ cv +:+ Py.nl)] /\
    (forall e, In e before -> exists content, e = Py.FileAppend s (content +:+ Py.nl)) /\
    forall w, exists earlier,
      default EmptyString (files (replay w (fst run)) !! o) =
        earlier +:+ "release_needed=" +:+ needed +:+ Py.nl
                +:+ "tag=" +:+ t +:+ Py.nl
                +:+ "cargo_version=" +:+ cv +:+ Py.nl.
Proof.
  intros Hc Hbr.
  assert (Hfile : forall before needed w,
    exists earlier,
      default EmptyString (files (replay w (before ++
        [Py.FileAppend o ("release_needed=" +:+ needed +:+ Py.nl);
         Py.FileAppend o ("tag=" +:+ t +:+ Py.nl);
         Py.FileAppend o ("cargo_version=" +:+ cv +:+ Py.nl)])) !! o) =
        earlier +:+ "release_needed=" +:+ needed +:+ Py.nl
                +:+ "tag=" +:+ t +:+ Py.nl
                +:+ "cargo_version=" +:+ cv +:+ Py.nl).
  { intros before needed w. rewrite replay_app, replay_content.
    exists (default EmptyString (files (replay w before) !! o)).
    cbn [appended]. rewrite String.eqb_refl, append_nil_r.
    now rewrite !append_assoc. }
  rewrite (run_valid _ _ _ _ _ _ Hc).
  destruct Hbr as [Heq|Hlt].
  - rewrite (main_equal _ _ _ _ Heq). cbn [fst]. rewrite Heq in Hfile |- *.
    pose (before := [Py.FileAppend s ("## Tag: " +:+ cv +:+ Py.nl);
                     Py.FileAppend s ("## Cargo Version: " +:+ cv +:+ Py.nl);
                     Py.FileAppend s ("No release needed." +:+ Py.nl)]).
    exists before, "false".
    split; [now right |]. split; [reflexivity |]. split.
    + intros e [<-|[<-|[<-|[]]]];
        [exists ("## Tag: " +:+ cv) | exists ("## Cargo Version: " +:+ cv)
        | exists "No release needed."]; reflexivity.
    + intros w. exact (Hfile before "false" w).
  - rewrite (main_behind _ _ _ _ Hlt). cbn [fst].
    pose (before := [Py.FileAppend s ("## Tag: " +:+ Py.lstrip "v" tag +:+ Py.nl);
                     Py.FileAppend s ("## Cargo Version: " +:+ cv +:+ Py.nl);
                     Py.FileAppend s ("Release needed." +:+ Py.nl)]).
    exists before, "true".
    split; [now left |]. split; [reflexivity |]. split.
    + intros e [<-|[<-|[<-|[]]]];
        [exists ("## Tag: " +:+ Py.lstrip "v" tag)
        | exists ("## Cargo Version: " +:+ cv)
        | exists "Release needed."]; reflexivity.
    + intros w. exact (Hfile before "true" w).
Qed.

End Decision.

Lemma C2_tag_ahead_hard_stop_witness :
  let run := compare_versions runner_env ["compare_versions.py"; "v9.0.0"; "10.0.0"] in
  configured runner_env "/run/output" "/run/summary" /\
  String.compare (Py.lstrip "v" "v9.0.0") "10.0.0" = Gt /\
  run =
    ([Py.FileAppend "/run/summary" ("## Tag: " +:+ "9.0.0" +:+ Py.nl);
      Py.FileAppend "/run/summary" ("## Cargo Version: " +:+ "10.0.0" +:+ Py.nl);
      Py.FileAppend "/run/summary"
        ("Tag is ahead of Cargo version. Please update Cargo.toml. And recreate the tag."
         +:+ Py.nl)],
     Py.Raise (Py.SystemExit 1)) /\
  Py.exit_status (snd run) = 1 /\
  appended "/run/output" (fst run) = EmptyString.
Proof.
  intros run.
  assert (Hgt : String.compare (Py.lstrip "v" "v9.0.0") "10.0.0" = Gt) by reflexivity.
  destruct (C2_tag_ahead_hard_stop runner_env "/run/output" "/run/summary"
              "compare_versions.py" "v9.0.0" "10.0.0" runner_env_configured Hgt)
    as (Hrun & Hstatus & _ & Hout).
  split; [exact runner_env_configured |]. split; [exact Hgt |].
  split; [exact Hrun |]. split; [exact Hstatus |].
  apply Hout. discriminate.
Defined.

Lemma C3_tag_equal_no_release_witness :
  let run := compare_versions runner_env ["compare_versions.py"; "v1.2.3"; "1.2.3"] in
  configured runner_env "/run/output" "/run/summary" /\
  Py.lstrip "v" "v1.2.3" = "1.2.3" /\
  run =
    ([Py.FileAppend "/run/summary" ("## Tag: " +:+ "1.2.3" +:+ Py.nl);
      Py.FileAppend "/run/summary" ("## Cargo Version: " +:+ "1.2.3" +:+ Py.nl);
      Py.FileAppend "/run/summary" ("No release needed." +:+ Py.nl);
      Py.FileAppend "/run/output" ("release_needed=false" +:+ Py.nl);
      Py.FileAppend "/run/output" ("tag=" +:+ "1.2.3" +:+ Py.nl);
      Py.FileAppend "/run/output" ("cargo_version=" +:+ "1.2.3" +:+ Py.nl)],
     Py.Return tt) /\
  Py.exit_status (snd run) = 0.
Proof.
  intros run.
  assert (Heq : Py.lstrip "v" "v1.2.3" = "1.2.3") by reflexivity.
  split; [exact runner_env_configured |]. split; [exact Heq |].
  exact (C3_tag_equal_no_release runner_env "/run/output" "/run/summary"
           "compare_versions.py" "v1.2.3" "1.2.3" runner_env_configured Heq).
Defined.

Lemma C4_tag_behind_release_needed_witness :
  let run := compare_versions runner_env ["compare_versions.py"; "v1.2.2"; "1.2.3"] in
  configured runner_env "/run/output" "/run/summary" /\
  String.compare (Py.lstrip "v" "v1.2.2") "1.2.3" = Lt /\
  run =
    ([Py.FileAppend "/run/summary" ("## Tag: " +:+ "1.2.2" +:+ Py.nl);
      Py.FileAppend "/run/summary" ("## Cargo Version: " +:+ "1.2.3" +:+ Py.nl);
      Py.FileAppend "/run/summary" ("Release needed." +:+ Py.nl);
      Py.FileAppend "/run/output" ("release_needed=true" +:+ Py.nl);
      Py.FileAppend "/run/output" ("tag=" +:+ "1.2.2" +:+ Py.nl);
      Py.FileAppend "/run/output" ("cargo_version=" +:+ "1.2.3" +:+ Py.nl)],
     Py.Return tt) /\
  Py.exit_status (snd run) = 0.
Proof.
  intros run.
  assert (Hlt : String.compare (Py.lstrip "v" "v1.2.2") "1.2.3" = Lt) by reflexivity.
  split; [exact runner_env_configured |]. split; [exact Hlt |].
  exact (C4_tag_behind_release_needed runner_env "/run/output" "/run/summary"
           "compare_versions.py" "v1.2.2" "1.2.3" runner_env_configured Hlt).
Defined.

Lemma C7_tag_and_version_records_witness :
  let run := compare_versions runner_env ["compare_versions.py"; "v1.2.2"; "1.2.3"] in
  configured runner_env "/run/output" "/run/summary" /\
  (Py.lstrip "v" "v1.2.2" = "1.2.3" \/
   String.compare (Py.lstrip "v" "v1.2.2") "1.2.3" = Lt) /\
  exists before needed,
    (needed = "true" \/ needed = "false") /\
    fst run = before ++
      [Py.FileAppend "/run/output" ("release_needed=" +:+ needed +:+ Py.nl);
       Py.FileAppend "/run/output" ("tag=" +:+ Py.lstrip "v" "v1.2.2" +:+ Py.nl);
       Py.FileAppend "/run/output" ("cargo_version=" +:+ "1.2.3" +:+ Py.nl)].
Proof.
  intros run.
  assert (Hbr : Py.lstrip "v" "v1.2.2" = "1.2.3" \/
                String.compare (Py.lstrip "v" "v1.2.2") "1.2.3" = Lt)
    by (right; reflexivity).
  split; [exact runner_env_configured |]. split; [exact Hbr |].
  destruct (C7_tag_and_version_records runner_env "/run/output" "/run/summary"
              "compare_versions.py" "v1.2.2" "1.2.3" runner_env_configured Hbr)
    as (before & needed & Hneeded & Htrace & _).
  exists before, needed. split; assumption.
Defined.

(** ** The headings *)

(** C8: in every run with both sinks configured and two positional
    arguments, whichever branch is taken, the first two effects are appends
    to the summary sink of the lines [## Tag: <normalized tag>] and
    [## Cargo Version: <reference version>]; no later effect writes a line
    with the heading prefix, so the run writes exactly these two headings,
    and they open what the run appends to the summary sink. *)
Theorem C8_two_headings_first
    (environ : gmap string string) (o s prog tag cv : string) :
  configured environ o s ->
  exists rest,
    fst (compare_versions environ [prog; tag; cv]) =
      [Py.FileAppend s ("## Tag: " +:+ Py.lstrip "v" tag +:+ Py.nl);
       Py.FileAppend s ("## Cargo Version: " +:+ cv +:+ Py.nl)] ++ rest /\
    existsb is_heading rest = false /\
    appended s (fst (compare_versions environ [prog; tag; cv])) =
      "## Tag: " +:+ Py.lstrip "v" tag +:+ Py.nl +:+
      "## Cargo Version: " +:+ cv +:+ Py.nl +:+ appended s rest.
Proof.
  intros Hc. rewrite (run_valid _ _ _ _ _ _ Hc).
  assert (Hsum : forall rest,
    appended s ([Py.FileAppend s ("## Tag: " +:+ Py.lstrip "v" tag +:+ Py.nl);
                 Py.FileAppend s ("## Cargo Version: " +:+ cv +:+ Py.nl)] ++ rest) =
    "## Tag: " +:+ Py.lstrip "v" tag +:+ Py.nl +:+
    "## Cargo Version: " +:+ cv +:+ Py.nl +:+ appended s rest).
  { intros rest. cbn [app appended]. rewrite String.eqb_refl.
    now rewrite !append_assoc. }
  destruct (String.compare (Py.lstrip "v" tag) cv) eqn:E.
  - apply String.compare_eq_iff in E. rewrite (main_equal _ _ _ _ E).
    rewrite E in Hsum |- *. cbn [fst].
    eexists. split; [reflexivity |]. split; [reflexivity | apply Hsum].
  - rewrite (main_behind _ _ _ _ E). cbn [fst].
    eexists. split; [reflexivity |]. split; [reflexivity | apply Hsum].
  - rewrite (main_ahead _ _ _ _ E). cbn [fst].
    eexists. split; [reflexivity |]. split; [reflexivity | apply Hsum].
Qed.

Lemma C8_two_headings_first_witness :
  let run := compare_versions runner_env ["compare_versions.py"; "v9.0.0"; "10.0.0"] in
  configured runner_env "/run/output" "/run/summary" /\
  exists rest,
    fst run =
      [Py.FileAppend "/run/summary" ("## Tag: " +:+ Py.lstrip "v" "v9.0.0" +:+ Py.nl);
       Py.FileAppend "/run/summary" ("## Cargo Version: " +:+ "10.0.0" +:+ Py.nl)] ++ rest /\
    existsb is_heading rest = false.
Proof.
  intros run. split; [exact runner_env_configured |].
  destruct (C8_two_headings_first runner_env "/run/output" "/run/summary"
              "compare_versions.py" "v9.0.0" "10.0.0" runner_env_configured)
    as (rest & Htrace & Hrest & _).
  exists rest. split; assumption.
Defined.

(** ** Tags made of ['v'] only *)

(** C10: a tag that consists of ['v'] characters only is normalized to the
    empty string; against a reference version that is not empty the run then
    takes the release-needed branch, never the hard stop: it writes
    [release_needed=true] and completes with status 0. *)
Theorem C10_tag_of_v_only
    (n : nat) (environ : gmap string string) (o s prog cv : string) :
  configured environ o s ->
  cv <> EmptyString ->
  Py.lstrip "v" (Py.replicate n "v") = EmptyString /\
  compare_versions environ [prog; Py.replicate n "v"; cv] =
    ([Py.FileAppend s ("## Tag: " +:+ Py.nl);
      Py.FileAppend s ("## Cargo Version: " +:+ cv +:+ Py.nl);
      Py.FileAppend s ("Release needed." +:+ Py.nl);
      Py.FileAppend o ("release_needed=true" +:+ Py.nl);
      Py.FileAppend o ("tag=" +:+ Py.nl);
      Py.FileAppend o ("cargo_version=" +:+ cv +:+ Py.nl)],
     Py.Return tt) /\
  Py.exit_status (snd (compare_versions environ [prog; Py.replicate n "v"; cv])) = 0.
Proof.
  intros Hc Hcv.
  assert (Hnorm : Py.lstrip "v" (Py.replicate n "v") = EmptyString).
  { rewrite <- (append_nil_r (Py.replicate n "v")).
    now rewrite replicate_lstrip by reflexivity. }
  assert (Hlt : String.compare (Py.lstrip "v" (Py.replicate n "v")) cv = Lt)
    by (rewrite Hnorm; now apply compare_nil_l).
  split; [exact Hnorm |].
  rewrite (run_valid _ _ _ _ _ _ Hc), (main_behind _ _ _ _ Hlt), Hnorm.
  now split.
Qed.

Lemma C10_tag_of_v_only_witness :
  let run := compare_versions runner_env ["compare_versions.py"; Py.replicate 3 "v"; "0.1.0"] in
  configured runner_env "/run/output" "/run/summary" /\
  "0.1.0" <> EmptyString /\
  Py.lstrip "v" (Py.replicate 3 "v") = EmptyString /\
  run =
    ([Py.FileAppend "/run/summary" ("## Tag: " +:+ Py.nl);
      Py.FileAppend "/run/summary" ("## Cargo Version: " +:+ "0.1.0" +:+ Py.nl);
      Py.FileAppend "/run/summary" ("Release needed." +:+ Py.nl);
      Py.FileAppend "/run/output" ("release_needed=true" +:+ Py.nl);
      Py.FileAppend "/run/output" ("tag=" +:+ Py.nl);
      Py.FileAppend "/run/output" ("cargo_version=" +:+ "0.1.0" +:+ Py.nl)],
     Py.Return tt) /\
  Py.exit_status (snd run) = 0.
Proof.
  intros run.
  assert (Hcv : "0.1.0" <> EmptyString) by discriminate.
  split; [exact runner_env_configured |]. split; [exact Hcv |].
  exact (C10_tag_of_v_only 3 runner_env "/run/output" "/run/summary"
           "compare_versions.py" "0.1.0" runner_env_configured Hcv).
Defined.

(** * Further properties of the script *)

(** ** Shapes of a run *)

Lemma length_three {A} (l : list A) :
  length l = 3%nat -> exists a b c, l = [a; b; c].
Proof.
  destruct l as [|a [|b [|c [|d l]]]]; cbn; try discriminate.
  intros _. now exists a, b, c.
Qed.

Lemma env_ok_configured (environ : gmap string string) :
  env_ok environ = true <-> exists o s, configured environ o s.
Proof.
  unfold env_ok, configured. split.
  - intros H. apply andb_true_iff in H as [Ho Hs].
    destruct (truthy_some _ Ho) as (o & Eo & Hno).
    destruct (truthy_some _ Hs) as (s & Es & Hns).
    now exists o, s.
  - intros (o & s & Eo & Hno & Es & Hns). rewrite Eo, Es.
    destruct o; [congruence |]. destruct s; [congruence |]. reflexivity.
Qed.

Lemma env_not_ok_missing (environ : gmap string string) :
  env_ok environ = false <->
  missing environ "GITHUB_OUTPUT" \/ missing environ "GITHUB_STEP_SUMMARY".
Proof.
  unfold env_ok. rewrite andb_false_iff, <- !missing_truthy. reflexivity.
Qed.

(** With the sinks configured a run is a usage error or [main]. *)
Lemma configured_run_shape
    (environ : gmap string string) (o s : string) (argv : list string) :
  configured environ o s ->
  (length argv <> 3%nat /\
   compare_versions environ argv =
     ([Py.StdoutWrite (usage +:+ Py.nl)], Py.Raise (Py.SystemExit 1))) \/
  (exists prog tag cv,
     argv = [prog; tag; cv] /\ compare_versions environ argv = main o s tag cv).
Proof.
  intros Hc. destruct (Nat.eq_dec (length argv) 3%nat) as [E|E].
  - right. destruct (length_three _ E) as (prog & tag & cv & ->).
    exists prog, tag, cv. split; [reflexivity | now apply run_valid].
  - left. split; [exact E |].
    now rewrite (run_configured _ _ _ argv Hc), (dunder_main_usage _ _ _ E).
Qed.

(** Without them it is one of the two configuration errors. *)
Lemma unconfigured_run_shape (environ : gmap string string) (argv : list string) :
  env_ok environ = false ->
  compare_versions environ argv =
    ([], Py.Raise (Py.EnvironmentError "GITHUB_OUTPUT environment variable is not set")) \/
  compare_versions environ argv =
    ([], Py.Raise (Py.EnvironmentError "GITHUB_STEP_SUMMARY environment variable is not set")).
Proof.
  intros H.
  destruct (Py.truthy (Py.getenv environ "GITHUB_OUTPUT")) eqn:Ho.
  - right. apply run_missing_summary; [exact Ho |].
    apply env_not_ok_missing in H as [H|H]; [| exact H].
    apply missing_truthy in H. congruence.
  - left. now apply run_missing_output, missing_truthy.
Qed.

(** The three results of [main], by the comparison it makes. *)
Lemma main_shape (o s tag cv : string) :
  (String.compare (Py.lstrip "v" tag) cv = Gt /\
   main o s tag cv =
     ([Py.FileAppend s ("## Tag: " +:+ Py.lstrip "v" tag +:+ Py.nl);
       Py.FileAppend s ("## Cargo Version: " +:+ cv +:+ Py.nl);
       Py.FileAppend s (tag_ahead_msg +:+ Py.nl)],
      Py.Raise (Py.SystemExit 1))) \/
  (Py.lstrip "v" tag = cv /\
   main o s tag cv =
     ([Py.FileAppend s ("## Tag: " +:+ cv +:+ Py.nl);
       Py.FileAppend s ("## Cargo Version: " +:+ cv +:+ Py.nl);
       Py.FileAppend s ("No release needed." +:+ Py.nl);
       Py.FileAppend o ("release_needed=false" +:+ Py.nl);
       Py.FileAppend o ("tag=" +:+ cv +:+ Py.nl);
       Py.FileAppend o ("cargo_version=" +:+ cv +:+ Py.nl)],
      Py.Return tt)) \/
  (String.compare (Py.lstrip "v" tag) cv = Lt /\
   main o s tag cv =
     ([Py.FileAppend s ("## Tag: " +:+ Py.lstrip "v" tag +:+ Py.nl);
       Py.FileAppend s ("## Cargo Version: " +:+ cv +:+ Py.nl);
       Py.FileAppend s ("Release needed." +:+ Py.nl);
       Py.FileAppend o ("release_needed=true" +:+ Py.nl);
       Py.FileAppend o ("tag=" +:+ Py.lstrip "v" tag +:+ Py.nl);
       Py.FileAppend o ("cargo_version=" +:+ cv +:+ Py.nl)],
      Py.Return tt)).
Proof.
  destruct (String.compare (Py.lstrip "v" tag) cv) eqn:E.
  - right. left. apply String.compare_eq_iff in E.
    split; [exact E | now apply main_equal].
  - right. right. split; [reflexivity | now apply main_behind].
  - left. split; [reflexivity | now apply main_ahead].
Qed.

(** ** More on strings and traces *)

Lemma compare_append_gt (a suffix : string) :
  suffix <> EmptyString -> String.compare (a +:+ suffix) a = Gt.
Proof.
  intros H. induction a as [|c a IH].
  - destruct suffix; [congruence | reflexivity].
  - rewrite append_cons. cbn [String.compare]. now rewrite ascii_compare_refl.
Qed.

Lemma compare_append_lt (a suffix : string) :
  suffix <> EmptyString -> String.compare a (a +:+ suffix) = Lt.
Proof.
  intros H. induction a as [|c a IH].
  - destruct suffix; [congruence | reflexivity].
  - rewrite append_cons. cbn [String.compare]. now rewrite ascii_compare_refl.
Qed.

Lemma compare_nil_r (a : string) :
  a <> EmptyString -> String.compare a EmptyString = Gt.
Proof. destruct a; [congruence | reflexivity]. Qed.


(** ** Exit status and outcome of every run *)



(** ** What a run leaves alone *)





(** X5: a run given two positional arguments prints nothing to standard
    output, in every environment: its reports go to the sinks, and a
    configuration error is an exception, not a printed line. *)
Theorem X5_silent_with_two_arguments
    (environ : gmap string string) (argv : list string) :
  length argv = 3%nat ->
  printed (fst (compare_versions environ argv)) = EmptyString.
Proof.
  intros Hlen. destruct (env_ok environ) eqn:Hok.
  - destruct (proj1 (env_ok_configured environ) Hok) as (o & s & Hc).
    destruct (configured_run_shape environ o s argv Hc)
      as [[Hne _]|(prog & tag & cv & -> & ->)]; [congruence |].
    destruct (main_shape o s tag cv) as [[_ ->]|[[_ ->]|[_ ->]]]; reflexivity.
  - destruct (unconfigured_run_shape environ argv Hok) as [-> | ->]; reflexivity.
Qed.

Lemma X5_silent_with_two_arguments_witness :
  let argv := ["compare_versions.py"; "v9.0.0"; "10.0.0"] in
  length argv = 3%nat /\
  printed (fst (compare_versions runner_env argv)) = EmptyString.
Proof.
  intros argv.
  assert (H : length argv = 3%nat) by reflexivity.
  split; [exact H |]. exact (X5_silent_with_two_arguments runner_env argv H).
Defined.

(** ** What a run does not depend on *)

(** X6: a run depends on the tag only through its normalized form, and not
    at all on [sys.argv[0]]: putting any number of ['v'] in front of the tag,
    or changing the program name, gives the same effects and the same
    outcome, in every environment. *)
Theorem X6_leading_v_and_program_name_irrelevant
    (environ : gmap string string) (prog prog' tag cv : string) (n : nat) :
  compare_versions environ [prog; Py.replicate n "v" +:+ tag; cv] =
  compare_versions environ [prog'; tag; cv].
Proof.
  destruct (env_ok environ) eqn:Hok.
  - destruct (proj1 (env_ok_configured environ) Hok) as (o & s & Hc).
    rewrite !(run_valid _ _ _ _ _ _ Hc). unfold main. cbv zeta.
    now rewrite replicate_lstrip by reflexivity.
  - apply env_not_ok_missing in Hok.
    destruct (Py.truthy (Py.getenv environ "GITHUB_OUTPUT")) eqn:Ho.
    + destruct Hok as [H|H]; [apply missing_truthy in H; congruence |].
      now rewrite !(run_missing_summary environ _ Ho H).
    + apply missing_truthy in Ho. now rewrite !(run_missing_output environ _ Ho).
Qed.

(** ** Edge cases of the comparison *)

Section Edges.

Variables (environ : gmap string string) (o s prog tag : string).

(** X7: only the tag is normalized.  A reference version that itself starts
    with ['v'] is never equal to a normalized tag, so such a run never writes
    [release_needed=false]: it asks for a release or stops. *)
Theorem X7_version_with_leading_v_never_equal (cv' : string) :
  configured environ o s ->
  Py.lstrip "v" tag <> String "v" cv' /\
  ~ In (Py.FileAppend o ("release_needed=false" +:+ Py.nl))
       (fst (compare_versions environ [prog; tag; String "v" cv'])).
Proof.
  intros Hc.
  assert (Hne : Py.lstrip "v" tag <> String "v" cv').
  { intros E. pose proof (lstrip_head "v" tag) as H. rewrite E in H.
    cbn in H. discriminate H. }
  split; [exact Hne |]. rewrite (run_valid _ _ _ _ _ _ Hc).
  destruct (main_shape o s tag (String "v" cv')) as [[_ ->]|[[E _]|[_ ->]]];
    [| contradiction |]; cbn [fst In]; intros H;
    repeat (destruct H as [H|H]; [discriminate H |]); exact H.
Qed.

(** X8: the comparison is by characters, a proper prefix being smaller.  A
    normalized tag that is the reference version followed by a non-empty
    suffix (a pre-release or build suffix, say) counts as ahead: the run
    stops with status 1 and writes no output record. *)
Theorem X8_tag_extending_version_is_ahead (cv suffix : string) :
  configured environ o s ->
  suffix <> EmptyString ->
  Py.lstrip "v" tag = cv +:+ suffix ->
  compare_versions environ [prog; tag; cv] =
    ([Py.FileAppend s ("## Tag: " +:+ cv +:+ suffix +:+ Py.nl);
      Py.FileAppend s ("## Cargo Version: " +:+ cv +:+ Py.nl);
      Py.FileAppend s (tag_ahead_msg +:+ Py.nl)],
     Py.Raise (Py.SystemExit 1)).
Proof.
  intros Hc Hsuf Ht.
  assert (Hgt : String.compare (Py.lstrip "v" tag) cv = Gt)
    by (rewrite Ht; now apply compare_append_gt).
  rewrite (run_valid _ _ _ _ _ _ Hc), (main_ahead _ _ _ _ Hgt), Ht.
  now rewrite !append_assoc.
Qed.

(** X9: conversely, a reference version that is the normalized tag followed
    by a non-empty suffix counts as newer than the tag: the run writes
    [release_needed=true] and completes with status 0. *)
Theorem X9_version_extending_tag_needs_release (suffix : string) :
  configured environ o s ->
  suffix <> EmptyString ->
  compare_versions environ [prog; tag; Py.lstrip "v" tag +:+ suffix] =
    ([Py.FileAppend s ("## Tag: " +:+ Py.lstrip "v" tag +:+ Py.nl);
      Py.FileAppend s ("## Cargo Version: " +:+ Py.lstrip "v" tag +:+ suffix +:+ Py.nl);
      Py.FileAppend s ("Release needed." +:+ Py.nl);
      Py.FileAppend o ("release_needed=true" +:+ Py.nl);
      Py.FileAppend o ("tag=" +:+ Py.lstrip "v" tag +:+ Py.nl);
      Py.FileAppend o ("cargo_version=" +:+ Py.lstrip "v" tag +:+ suffix +:+ Py.nl)],
     Py.Return tt).
Proof.
  intros Hc Hsuf.
  rewrite (run_valid _ _ _ _ _ _ Hc),
    (main_behind _ _ _ _ (compare_append_lt (Py.lstrip "v" tag) suffix Hsuf)).
  now rewrite !append_assoc.
Qed.

(** X10: an empty reference version is accepted like any other string.  The
    run then completes with status 0 exactly when the normalized tag is empty
    too, in which case it reports [release_needed=false]; every other tag is
    ahead of it. *)
Theorem X10_empty_reference_version :
  configured environ o s ->
  (Py.exit_status (snd (compare_versions environ [prog; tag; EmptyString])) = 0 <->
   Py.lstrip "v" tag = EmptyString) /\
  (Py.lstrip "v" tag = EmptyString ->
   In (Py.FileAppend o ("release_needed=false" +:+ Py.nl))
      (fst (compare_versions environ [prog; tag; EmptyString]))) /\
  (Py.lstrip "v" tag <> EmptyString ->
   Py.exit_status (snd (compare_versions environ [prog; tag; EmptyString])) = 1).
Proof.
  intros Hc. rewrite (run_valid _ _ _ _ _ _ Hc).
  destruct (main_shape o s tag EmptyString) as [[E ->]|[[E ->]|[E ->]]];
    cbn [fst snd Py.exit_status].
  - assert (Hne : Py.lstrip "v" tag <> EmptyString)
      by (intros E'; rewrite E' in E; discriminate E).
    repeat split; try discriminate; intros; congruence.
  - repeat split; try assumption; intros; try congruence.
    cbn [In]. auto 6.
  - destruct (Py.lstrip "v" tag); discriminate E.
Qed.

(** X11: the script does not check that the two variables name different
    files.  When both name the same path, a run that is not stopped appends
    its six lines to that one file in the order it writes them: the three
    summary lines, then the three records. *)
Theorem X11_one_file_for_both_sinks (p cv : string) (w : world) :
  configured environ p p ->
  String.compare (Py.lstrip "v" tag) cv <> Gt ->
  default EmptyString
    (files (replay w (fst (compare_versions environ [prog; tag; cv]))) !! p) =
  default EmptyString (files w !! p) +:+
    "## Tag: " +:+ Py.lstrip "v" tag +:+ Py.nl +:+
    "## Cargo Version: " +:+ cv +:+ Py.nl +:+
    (if Py.eq (Py.lstrip "v" tag) cv then "No release needed." else "Release needed.")
      +:+ Py.nl +:+
    "release_needed=" +:+
      (if Py.eq (Py.lstrip "v" tag) cv then "false" else "true") +:+ Py.nl +:+
    "tag=" +:+ Py.lstrip "v" tag +:+ Py.nl +:+
    "cargo_version=" +:+ cv +:+ Py.nl.
Proof.
  intros Hc Hgt. rewrite replay_content, (run_valid _ _ _ _ _ _ Hc). f_equal.
  destruct (main_shape p p tag cv) as [[E _]|[[E ->]|[E ->]]]; [contradiction | |].
  - rewrite E. unfold Py.eq. rewrite String.eqb_refl.
    cbn [fst appended]. rewrite String.eqb_refl.
    now rewrite !append_assoc, append_nil_r.
  - rewrite (eq_lt_false _ _ E).
    cbn [fst appended]. rewrite String.eqb_refl.
    now rewrite !append_assoc, append_nil_r.
Qed.

End Edges.

Lemma X7_version_with_leading_v_never_equal_witness :
  configured runner_env "/run/output" "/run/summary" /\
  Py.lstrip "v" "v1.2.3" <> "v1.2.3" /\
  ~ In (Py.FileAppend "/run/output" ("release_needed=false" +:+ Py.nl))
       (fst (compare_versions runner_env ["compare_versions.py"; "v1.2.3"; "v1.2.3"])).
Proof.
  split; [exact runner_env_configured |].
  exact (X7_version_with_leading_v_never_equal runner_env "/run/output" "/run/summary"
           "compare_versions.py" "v1.2.3" "1.2.3" runner_env_configured).
Defined.

Lemma X8_tag_extending_version_is_ahead_witness :
  configured runner_env "/run/output" "/run/summary" /\
  "-rc1" <> EmptyString /\
  Py.lstrip "v" "v1.2.3-rc1" = "1.2.3" +:+ "-rc1" /\
  Py.exit_status
    (snd (compare_versions runner_env ["compare_versions.py"; "v1.2.3-rc1"; "1.2.3"])) = 1.
Proof.
  assert (Hsuf : "-rc1" <> EmptyString) by discriminate.
  assert (Ht : Py.lstrip "v" "v1.2.3-rc1" = "1.2.3" +:+ "-rc1") by reflexivity.
  split; [exact runner_env_configured |]. split; [exact Hsuf |]. split; [exact Ht |].
  rewrite (X8_tag_extending_version_is_ahead runner_env "/run/output" "/run/summary"
             "compare_versions.py" "v1.2.3-rc1" "1.2.3" "-rc1"
             runner_env_configured Hsuf Ht).
  reflexivity.
Defined.

Lemma X9_version_extending_tag_needs_release_witness :
  configured runner_env "/run/output" "/run/summary" /\
  ".1" <> EmptyString /\
  Py.exit_status
    (snd (compare_versions runner_env
            ["compare_versions.py"; "v1.2"; Py.lstrip "v" "v1.2" +:+ ".1"])) = 0.
Proof.
  assert (Hsuf : ".1" <> EmptyString) by discriminate.
  split; [exact runner_env_configured |]. split; [exact Hsuf |].
  rewrite (X9_version_extending_tag_needs_release runner_env "/run/output" "/run/summary"
             "compare_versions.py" "v1.2" ".1" runner_env_configured Hsuf).
  reflexivity.
Defined.

Lemma X10_empty_reference_version_witness :
  configured runner_env "/run/output" "/run/summary" /\
  Py.lstrip "v" "v1.0" <> EmptyString /\
  Py.exit_status
    (snd (compare_versions runner_env ["compare_versions.py"; "v1.0"; EmptyString])) = 1.
Proof.
  assert (Hne : Py.lstrip "v" "v1.0" <> EmptyString) by discriminate.
  split; [exact runner_env_configured |]. split; [exact Hne |].
  exact (proj2 (proj2 (X10_empty_reference_version runner_env "/run/output" "/run/summary"
                         "compare_versions.py" "v1.0" runner_env_configured)) Hne).
Defined.

Lemma X11_one_file_for_both_sinks_witness :
  let environ : gmap string string :=
    <["GITHUB_OUTPUT" := "/run/log"]> (<["GITHUB_STEP_SUMMARY" := "/run/log"]> ∅) in
  let w := World ∅ EmptyString in
  configured environ "/run/log" "/run/log" /\
  String.compare (Py.lstrip "v" "v1.2.3") "1.2.3" <> Gt /\
  default EmptyString
    (files (replay w (fst (compare_versions environ
                             ["compare_versions.py"; "v1.2.3"; "1.2.3"]))) !! "/run/log") =
  "## Tag: 1.2.3" +:+ Py.nl +:+ "## Cargo Version: 1.2.3" +:+ Py.nl +:+
  "No release needed." +:+ Py.nl +:+ "release_needed=false" +:+ Py.nl +:+
  "tag=1.2.3" +:+ Py.nl +:+ "cargo_version=1.2.3" +:+ Py.nl.
Proof.
  intros environ w.
  assert (Hc : configured environ "/run/log" "/run/log")
    by (repeat split; try discriminate; vm_compute; reflexivity).
  assert (Hgt : String.compare (Py.lstrip "v" "v1.2.3") "1.2.3" <> Gt)
    by (vm_compute; discriminate).
  split; [exact Hc |]. split; [exact Hgt |].
  rewrite (X11_one_file_for_both_sinks environ "compare_versions.py" "v1.2.3"
             "/run/log" "1.2.3" w Hc Hgt).
  reflexivity.
Defined.
